(** * Regalia "React performance" lesson: the [App] component of src/App.jsx

    The component holds two numeric state cells ([useState(0)] twice), two
    inline click handlers that close over the values of the render that
    created them, and one memoised value ([useMemo] keyed on [count1]) whose
    body writes a line to the console before returning [count1 * 60 * 5].

    The development has three layers:
    - [React]: the part of the hooks runtime the component calls
      ([useState], [useMemo], the dependency comparison, the dispatch of a
      state setter followed by a re-render);
    - [App]: the component itself, written hook call by hook call as in the
      source;
    - the properties of the running component.

    Runtime.  The component is the root of the tree and renders once for
    the mount and once for each state change, as the production runtime
    does; a press is handled to completion (setter call, render, commit)
    before the next one.

    Numbers.  The counters start at [0] and only ever receive [+ 1]; the
    derived value is a product of a counter with [60] and [5].  In the
    component they are modelled as [Z]: the specification excludes overflow
    (sections 4.1 and 7: unbounded integers, bounded interactive use), and
    the arithmetic of the source, which is that of doubles ([Number]), is
    integer arithmetic as long as the results stay below [2^53].
    [takesLongNumber] is the body of the memo with its two products computed
    as the runtime computes them, for what is said of the expression at
    every integer rather than along a session. *)

From Stdlib Require Import ZArith List String Bool Lia Permutation.
Import ListNotations.

Local Open Scope string_scope.
Local Open Scope list_scope.
Local Open Scope Z_scope.

(** ** The hooks runtime *)

Module React.

(** One cell of a component's hook list, in call order: the state of a
    [useState], or the pair (value, dependency array) of a [useMemo]. *)
Inductive Hook : Type :=
| StateHook (memoizedState : Z)
| MemoHook (value : Z) (deps : list Z).

(** What a bound state setter does when it is called with a value: it
    targets the hook cell it was created for. *)
Record Dispatch : Type := mkDispatch { queue : nat; action : Z }.

(** The state threaded through one execution of a component function.
    [current] is the hook list of the previous committed render ([None]
    while mounting), [workInProgress] the list being built by this render,
    [console] every line written so far. *)
Record RenderState : Type := mkRenderState {
  current : option (list Hook);
  workInProgress : list Hook;
  console : list string
}.

(** A render computation: it threads the render state and may throw (a hook
    of the wrong kind, or a hook missing from the previous render). *)
Definition Render (A : Type) : Type := RenderState -> option (A * RenderState).

Definition ret {A : Type} (a : A) : Render A := fun r => Some (a, r).

Definition bind {A B : Type} (m : Render A) (k : A -> Render B) : Render B :=
  fun r => match m r with
           | Some (a, r') => k a r'
           | None => None
           end.

Definition pushHook (h : Hook) (r : RenderState) : RenderState :=
  {| current := current r;
     workInProgress := workInProgress r ++ [h];
     console := console r |}.

(** [console.log(line)] *)
Definition console_log (line : string) : Render unit :=
  fun r => Some (tt, {| current := current r;
                        workInProgress := workInProgress r;
                        console := console r ++ [line] |}).

(** [useState(initialState)]: on mount the cell is created with the initial
    state; on update the cell of the previous render is read back.  The
    setter returned is bound to the position of the cell. *)
Definition useState (initialState : Z) : Render (Z * (Z -> Dispatch)) :=
  fun r =>
    let slot := List.length (workInProgress r) in
    match current r with
    | None =>
        Some ((initialState, mkDispatch slot), pushHook (StateHook initialState) r)
    | Some hooks =>
        match nth_error hooks slot with
        | Some (StateHook s) => Some ((s, mkDispatch slot), pushHook (StateHook s) r)
        | _ => None
        end
    end.

(** The comparison of two dependency arrays: element by element with
    [Object.is], over their common length. *)
Fixpoint areHookInputsEqual (nextDeps prevDeps : list Z) : bool :=
  match nextDeps, prevDeps with
  | n :: nextDeps', p :: prevDeps' =>
      if Z.eqb n p then areHookInputsEqual nextDeps' prevDeps' else false
  | _, _ => true
  end.

(** [useMemo(nextCreate, deps)]: on mount [nextCreate] runs and its result
    is stored with [deps]; on update it runs again only when [deps] differs
    from the stored array, otherwise the stored value is returned and
    [nextCreate] is not called. *)
Definition useMemo (nextCreate : Render Z) (deps : list Z) : Render Z :=
  fun r =>
    let slot := List.length (workInProgress r) in
    match current r with
    | None =>
        match nextCreate r with
        | Some (nextValue, r') => Some (nextValue, pushHook (MemoHook nextValue deps) r')
        | None => None
        end
    | Some hooks =>
        match nth_error hooks slot with
        | Some (MemoHook prevValue prevDeps) =>
            if areHookInputsEqual deps prevDeps
            then Some (prevValue, pushHook (MemoHook prevValue prevDeps) r)
            else
              match nextCreate r with
              | Some (nextValue, r') =>
                  Some (nextValue, pushHook (MemoHook nextValue deps) r')
              | None => None
              end
        | _ => None
        end
    end.

(** Writing [v] into the state cell at position [slot]. *)
Fixpoint setHookState (slot : nat) (v : Z) (hooks : list Hook) : list Hook :=
  match hooks, slot with
  | [], _ => []
  | StateHook _ :: rest, O => StateHook v :: rest
  | h :: rest, O => h :: rest
  | h :: rest, S slot' => h :: setHookState slot' v rest
  end.

End React.

Import React.

Declare Scope render_scope.
Delimit Scope render_scope with render.
Notation "x <- m ;; k" := (bind m (fun x => k))
  (at level 61, m at next level, right associativity) : render_scope.
Notation "' pat <- m ;; k" := (bind m (fun x => match x with pat => k end))
  (at level 61, pat pattern, m at next level, right associativity) : render_scope.
Notation "m ;;; k" := (bind m (fun _ => k))
  (at level 61, right associativity) : render_scope.

(** ** The component *)

(** The rendered element: the three numbers shown in the header and the
    [onClick] handlers of the two buttons.  A handler is the closure the
    render created; calling it yields the setter call it performs. *)
Record Element : Type := mkElement {
  Count1 : Z;
  IncreaseCount1 : unit -> Dispatch;
  Count2 : Z;
  IncreaseCount2 : unit -> Dispatch;
  DoSomethingThatTakesLong : Z
}.

(** The function passed to [useMemo], closed over [count1], with the
    products read as integer products ([takesLongNumber] below has them as
    products of doubles; the two agree while [count1 * 300] stays below
    [2^53] in absolute value). *)
Definition takesLong (count1 : Z) : Render Z :=
  (console_log "somethingThatTakesLong" ;;;
   ret (count1 * 60 * 5))%render.

Definition App : Render Element :=
  ('(count1, setCount1) <- useState 0 ;;
   '(count2, setCount2) <- useState 0 ;;
   let incrementCount1 := fun _ : unit => setCount1 (count1 + 1) in
   let incrementCount2 := fun _ : unit => setCount2 (count2 + 1) in
   somethingThatTakesLong <- useMemo (takesLong count1) [count1] ;;
   ret {| Count1 := count1;
          IncreaseCount1 := incrementCount1;
          Count2 := count2;
          IncreaseCount2 := incrementCount2;
          DoSomethingThatTakesLong := somethingThatTakesLong |})%render.

(** ** The mounted component *)

(** What exists between two events: the committed hook list, the element on
    screen (with the handlers of the render that produced it) and the
    console. *)
Record Root : Type := mkRoot {
  fiber : list Hook;
  screen : Element;
  log : list string
}.

(** One execution of [App] and the commit of its result. *)
Definition renderRoot (prev : option (list Hook)) (out : list string) : option Root :=
  match App {| current := prev; workInProgress := []; console := out |} with
  | Some (el, r) => Some {| fiber := workInProgress r; screen := el; log := console r |}
  | None => None
  end.

(** The initial render. *)
Definition mount : option Root := renderRoot None [].

(** A setter call: when the new value is the one already stored the update
    is dropped and nothing renders; otherwise the cell is written and the
    component renders again. *)
Definition dispatchSetState (d : Dispatch) (w : Root) : option Root :=
  match nth_error (fiber w) (queue d) with
  | Some (StateHook s) =>
      if Z.eqb (action d) s then Some w
      else renderRoot (Some (setHookState (queue d) (action d) (fiber w))) (log w)
  | _ => None
  end.

Inductive Button : Type := Increase1 | Increase2.

Definition Button_eq_dec (a b : Button) : {a = b} + {a <> b}.
Proof. decide equality. Defined.

(** A button press runs the [onClick] handler of the element on screen. *)
Definition click (b : Button) (w : Root) : option Root :=
  match b with
  | Increase1 => dispatchSetState (IncreaseCount1 (screen w) tt) w
  | Increase2 => dispatchSetState (IncreaseCount2 (screen w) tt) w
  end.

Fixpoint clicks (bs : list Button) (w : Root) : option Root :=
  match bs with
  | [] => Some w
  | b :: bs' =>
      match click b w with
      | Some w' => clicks bs' w'
      | None => None
      end
  end.

(** The session that mounts the component and then presses [bs]. *)
Definition session (bs : list Button) : option Root :=
  match mount with
  | Some w => clicks bs w
  | None => None
  end.

(** What the user reads off the screen. *)
Definition Counter1 (w : Root) : Z := Count1 (screen w).
Definition Counter2 (w : Root) : Z := Count2 (screen w).
Definition DerivedValue (w : Root) : Z := DoSomethingThatTakesLong (screen w).

(** The recomputation trace: how many times the body of the memo ran. *)
Definition computations (w : Root) : nat := List.length (log w).

(** The element and the root produced by a render that sees [count1] and
    [count2] in the state cells. *)
Definition elementOf (count1 count2 : Z) : Element :=
  {| Count1 := count1;
     IncreaseCount1 := fun _ => mkDispatch 0 (count1 + 1);
     Count2 := count2;
     IncreaseCount2 := fun _ => mkDispatch 1 (count2 + 1);
     DoSomethingThatTakesLong := count1 * 60 * 5 |}.

Definition settledAt (count1 count2 : Z) (out : list string) : Root :=
  {| fiber := [StateHook count1; StateHook count2; MemoHook (count1 * 60 * 5) [count1]];
     screen := elementOf count1 count2;
     log := out |}.

(** A settled state: what a completed and committed render leaves.  The
    two state cells, the memo cell keyed on [count1], and the screen with
    the handlers of that render all agree; the console is any. *)
Definition Settled (w : Root) : Prop :=
  exists count1 count2 out, w = settledAt count1 count2 out.

(** ** Sessions seen as a whole *)

(** How many times button [b] is pressed in [bs]. *)
Definition presses (b : Button) (bs : list Button) : nat :=
  count_occ Button_eq_dec bs b.

(** Every committed render of a run, oldest first: the state the run starts
    from, then the state after each press. *)
Fixpoint renders (bs : list Button) (w : Root) : list Root :=
  w :: match bs with
       | [] => []
       | b :: bs' =>
           match click b w with
           | Some w' => renders bs' w'
           | None => []
           end
       end.

Definition sessionRenders (bs : list Button) : list Root :=
  match mount with
  | Some w => renders bs w
  | None => []
  end.

(** The number of places where a value differs from the one before it. *)
Fixpoint changes (xs : list Z) : nat :=
  match xs with
  | [] => 0%nat
  | x :: rest =>
      match rest with
      | [] => 0%nat
      | y :: _ => ((if Z.eqb x y then 0 else 1) + changes rest)%nat
      end
  end.

(** The values of [count1] seen by the renders of a session, and how many
    different ones there are. *)
Definition visited (bs : list Button) : list Z :=
  map Counter1 (sessionRenders bs).

Definition distinctVisited (bs : list Button) : nat :=
  List.length (nodup Z.eq_dec (visited bs)).

(** The computations of the memo body between two states of one run. *)
Definition recomputations (before after : Root) : nat :=
  (computations after - computations before)%nat.

(** ** Numbers of the source

    A JavaScript number is an IEEE-754 binary64.  On integer operands the
    sum and the product are the exact integer rounded to a 53-bit
    significand, to nearest, ties to even (results stay far below the
    largest finite number here).  [Number.round] is that rounding; it is
    the identity below [2^53], which is why [Z] arithmetic is the
    arithmetic of the component for every count a session can show in
    practice. *)
Module Number.

Definition round (z : Z) : Z :=
  let m := Z.abs z in
  if Z.log2 m <? 53 then z
  else
    let e := Z.log2 m - 52 in
    let q := Z.shiftr m e in
    let r := Z.land m (Z.ones e) in
    let half := Z.shiftl 1 (e - 1) in
    let q' := if (half <? r) || ((half =? r) && Z.odd q) then q + 1 else q in
    Z.sgn z * Z.shiftl q' e.

Definition add (a b : Z) : Z := round (a + b).
Definition mul (a b : Z) : Z := round (a * b).

End Number.


(** ** The variants the commentary of the file walks through

    Lines 101-124 of the source hold, commented out, the experiment its
    header describes: a module-level [Set] named [functions] that collects
    the handlers of every render (lines 101, 116, 117, 124), and two other
    ways to define the handlers, [useCallback] with an empty dependency
    array (lines 110-111) and with the counter as dependency (lines
    113-114).  [Lesson.App] is the component with the [Set] lines enabled and
    the handlers defined in one of the three ways; the [logName] lines
    (119-122, 139) stay commented out.

    A function object has an identity, which is what the [Set] compares:
    each evaluation of an arrow function creates a new one. *)
Module Lesson.

Record Fn : Type := mkFn { ref : nat; call : unit -> Dispatch }.

Inductive Hook : Type :=
| StateHook (memoizedState : Z)
| CallbackHook (callback : Fn) (deps : list Z)
| MemoHook (value : Z) (deps : list Z).

(** A console line: a text, or the members of the [Set] that was logged. *)
Inductive Line : Type :=
| Text (s : string)
| Members (refs : list nat).

(** The render state: as for the shipped component, with the [functions]
    set of the module and the number of function objects created so far. *)
Record RenderState : Type := mkRenderState {
  current : option (list Hook);
  workInProgress : list Hook;
  console : list Line;
  functions : list nat;
  created : nat
}.

Definition Render (A : Type) : Type := RenderState -> option (A * RenderState).

Definition ret {A : Type} (a : A) : Render A := fun r => Some (a, r).

Definition bind {A B : Type} (m : Render A) (k : A -> Render B) : Render B :=
  fun r => match m r with
           | Some (a, r') => k a r'
           | None => None
           end.

Definition pushHook (h : Hook) (r : RenderState) : RenderState :=
  {| current := current r;
     workInProgress := workInProgress r ++ [h];
     console := console r;
     functions := functions r;
     created := created r |}.

Definition console_log (line : Line) : Render unit :=
  fun r => Some (tt, {| current := current r;
                        workInProgress := workInProgress r;
                        console := console r ++ [line];
                        functions := functions r;
                        created := created r |}).

(** [() => body]: a new function object. *)
Definition arrow (body : unit -> Dispatch) : Render Fn :=
  fun r => Some ({| ref := created r; call := body |},
                 {| current := current r;
                    workInProgress := workInProgress r;
                    console := console r;
                    functions := functions r;
                    created := S (created r) |}).

(** [Set.prototype.add]: membership is by identity, insertion order is
    kept. *)
Definition setAdd (x : nat) (members : list nat) : list nat :=
  if existsb (Nat.eqb x) members then members else members ++ [x].

(** [functions.add(f)] *)
Definition functions_add (f : Fn) : Render unit :=
  fun r => Some (tt, {| current := current r;
                        workInProgress := workInProgress r;
                        console := console r;
                        functions := setAdd (ref f) (functions r);
                        created := created r |}).

(** [console.log(functions)] *)
Definition console_log_functions : Render unit :=
  fun r => console_log (Members (functions r)) r.

Definition useState (initialState : Z) : Render (Z * (Z -> Dispatch)) :=
  fun r =>
    let slot := List.length (workInProgress r) in
    match current r with
    | None =>
        Some ((initialState, mkDispatch slot), pushHook (StateHook initialState) r)
    | Some hooks =>
        match nth_error hooks slot with
        | Some (StateHook s) => Some ((s, mkDispatch slot), pushHook (StateHook s) r)
        | _ => None
        end
    end.

Definition useMemo (nextCreate : Render Z) (deps : list Z) : Render Z :=
  fun r =>
    let slot := List.length (workInProgress r) in
    match current r with
    | None =>
        match nextCreate r with
        | Some (nextValue, r') => Some (nextValue, pushHook (MemoHook nextValue deps) r')
        | None => None
        end
    | Some hooks =>
        match nth_error hooks slot with
        | Some (MemoHook prevValue prevDeps) =>
            if areHookInputsEqual deps prevDeps
            then Some (prevValue, pushHook (MemoHook prevValue prevDeps) r)
            else
              match nextCreate r with
              | Some (nextValue, r') =>
                  Some (nextValue, pushHook (MemoHook nextValue deps) r')
              | None => None
              end
        | _ => None
        end
    end.

(** [useCallback(callback, deps)]: the function of the first render is
    kept, and returned again, for as long as [deps] is unchanged; when
    [deps] differs the function just passed replaces it. *)
Definition useCallback (callback : Fn) (deps : list Z) : Render Fn :=
  fun r =>
    let slot := List.length (workInProgress r) in
    match current r with
    | None => Some (callback, pushHook (CallbackHook callback deps) r)
    | Some hooks =>
        match nth_error hooks slot with
        | Some (CallbackHook prevCallback prevDeps) =>
            if areHookInputsEqual deps prevDeps
            then Some (prevCallback, pushHook (CallbackHook prevCallback prevDeps) r)
            else Some (callback, pushHook (CallbackHook callback deps) r)
        | _ => None
        end
    end.

Fixpoint setHookState (slot : nat) (v : Z) (hooks : list Hook) : list Hook :=
  match hooks, slot with
  | [], _ => []
  | StateHook _ :: rest, O => StateHook v :: rest
  | h :: rest, O => h :: rest
  | h :: rest, S slot' => h :: setHookState slot' v rest
  end.

Declare Scope lesson_scope.
Delimit Scope lesson_scope with lesson.
Notation "x <- m ;; k" := (bind m (fun x => k))
  (at level 61, m at next level, right associativity) : lesson_scope.
Notation "' pat <- m ;; k" := (bind m (fun x => match x with pat => k end))
  (at level 61, pat pattern, m at next level, right associativity) : lesson_scope.
Notation "m ;;; k" := (bind m (fun _ => k))
  (at level 61, right associativity) : lesson_scope.

(** How the two handlers are defined. *)
Inductive Handlers : Type :=
| Inline          (* lines 107-108: [() => setCount1(count1 + 1)] *)
| CallbackNoDeps  (* lines 110-111: [useCallback(() => ..., [])] *)
| CallbackDeps.   (* lines 113-114: [useCallback(() => ..., [count1])] *)

Definition handler (h : Handlers) (body : unit -> Dispatch) (count : Z) : Render Fn :=
  match h with
  | Inline => arrow body
  | CallbackNoDeps => (f <- arrow body ;; useCallback f [])%lesson
  | CallbackDeps => (f <- arrow body ;; useCallback f [count])%lesson
  end.

Record Element : Type := mkElement {
  Count1 : Z;
  IncreaseCount1 : Fn;
  Count2 : Z;
  IncreaseCount2 : Fn;
  DoSomethingThatTakesLong : Z
}.

Definition takesLong (count1 : Z) : Render Z :=
  (console_log (Text "somethingThatTakesLong") ;;;
   ret (count1 * 60 * 5))%lesson.

Definition App (h : Handlers) : Render Element :=
  ('(count1, setCount1) <- useState 0 ;;
   '(count2, setCount2) <- useState 0 ;;
   incrementCount1 <- handler h (fun _ : unit => setCount1 (count1 + 1)) count1 ;;
   incrementCount2 <- handler h (fun _ : unit => setCount2 (count2 + 1)) count2 ;;
   functions_add incrementCount1 ;;;
   functions_add incrementCount2 ;;;
   console_log_functions ;;;
   somethingThatTakesLong <- useMemo (takesLong count1) [count1] ;;
   ret {| Count1 := count1;
          IncreaseCount1 := incrementCount1;
          Count2 := count2;
          IncreaseCount2 := incrementCount2;
          DoSomethingThatTakesLong := somethingThatTakesLong |})%lesson.

(** The mounted component, with what outlives a render: the set, the
    function objects created, and whether a fiber of the component still
    carries the lanes of the last committed update. *)
Record Root : Type := mkRoot {
  fiber : list Hook;
  screen : Element;
  log : list Line;
  collected : list nat;
  objects : nat;
  lanes : bool
}.

(** One execution of the component function over the cells [prev]. *)
Definition runApp (h : Handlers) (prev : option (list Hook))
    (out : list Line) (members : list nat) (n : nat) : option (Element * RenderState) :=
  App h {| current := prev; workInProgress := []; console := out;
           functions := members; created := n |}.

(** The initial render. *)
Definition mount (h : Handlers) : option Root :=
  match runApp h None [] [] 0 with
  | Some (el, r) =>
      Some {| fiber := workInProgress r; screen := el; log := console r;
              collected := functions r; objects := created r; lanes := false |}
  | None => None
  end.

(** A setter call.  It returns at once only when the value is the stored
    one and no fiber carries lanes.  Otherwise the component function runs.
    When the value differs its result is committed, and the fiber left
    behind keeps its lanes.  When the value is the stored one the function
    has run, so what it did to the set, the console and the heap has
    happened, but the runtime bails out: the element on screen stays, and
    the lanes are cleared, so that a further call with the stored value
    returns at once. *)
Definition dispatchSetState (h : Handlers) (d : Dispatch) (w : Root) : option Root :=
  match nth_error (fiber w) (queue d) with
  | Some (StateHook s) =>
      let same := Z.eqb (action d) s in
      if same && negb (lanes w) then Some w
      else
        match runApp h (Some (setHookState (queue d) (action d) (fiber w)))
                (log w) (collected w) (objects w) with
        | Some (el, r) =>
            Some {| fiber := workInProgress r;
                    screen := if same then screen w else el;
                    log := console r;
                    collected := functions r;
                    objects := created r;
                    lanes := negb same |}
        | None => None
        end
  | _ => None
  end.

Definition click (h : Handlers) (b : Button) (w : Root) : option Root :=
  match b with
  | Increase1 => dispatchSetState h (call (IncreaseCount1 (screen w)) tt) w
  | Increase2 => dispatchSetState h (call (IncreaseCount2 (screen w)) tt) w
  end.

Fixpoint clicks (h : Handlers) (bs : list Button) (w : Root) : option Root :=
  match bs with
  | [] => Some w
  | b :: bs' =>
      match click h b w with
      | Some w' => clicks h bs' w'
      | None => None
      end
  end.

Definition session (h : Handlers) (bs : list Button) : option Root :=
  match mount h with
  | Some w => clicks h bs w
  | None => None
  end.

(** Reading the console: each execution of the component function logs
    the set once (line 124), each execution of the memo body its text. *)
Definition isMembers (line : Line) : bool :=
  match line with
  | Members _ => true
  | Text _ => false
  end.

Definition appRuns (out : list Line) : nat :=
  List.length (filter isMembers out).

Definition memoRuns (out : list Line) : nat :=
  List.length (filter (fun line => negb (isMembers line)) out).

(** The function object that sets cell [slot] to [seen + 1]. *)
Definition incrementFn (r : nat) (slot : nat) (seen : Z) : Fn :=
  {| ref := r; call := fun _ => mkDispatch slot (seen + 1) |}.

(** The cells of a settled state: the counters, the handlers kept by
    [useCallback] (none when the handlers are inline) and the memo. *)
Definition cellsOf (h : Handlers) (count1 count2 : Z) (f1 f2 : Fn)
    (seen1 seen2 : Z) : list Hook :=
  match h with
  | Inline =>
      [StateHook count1; StateHook count2; MemoHook (count1 * 60 * 5) [count1]]
  | CallbackNoDeps =>
      [StateHook count1; StateHook count2;
       CallbackHook f1 []; CallbackHook f2 [];
       MemoHook (count1 * 60 * 5) [count1]]
  | CallbackDeps =>
      [StateHook count1; StateHook count2;
       CallbackHook f1 [seen1]; CallbackHook f2 [seen2];
       MemoHook (count1 * 60 * 5) [count1]]
  end.

(** A settled state in which the handlers on screen are the objects [r1]
    and [r2], created by renders that saw [seen1] and [seen2]. *)
Definition settledAt (h : Handlers) (count1 count2 : Z)
    (r1 : nat) (seen1 : Z) (r2 : nat) (seen2 : Z)
    (out : list Line) (members : list nat) (n : nat) (pending : bool) : Root :=
  {| fiber := cellsOf h count1 count2 (incrementFn r1 0 seen1) (incrementFn r2 1 seen2)
                seen1 seen2;
     screen := {| Count1 := count1;
                  IncreaseCount1 := incrementFn r1 0 seen1;
                  Count2 := count2;
                  IncreaseCount2 := incrementFn r2 1 seen2;
                  DoSomethingThatTakesLong := count1 * 60 * 5 |};
     log := out;
     collected := members;
     objects := n;
     lanes := pending |}.

(** The settled states each way of defining the handlers runs through.
    Inline: the handlers are the two newest objects and the set holds every
    object created.  Empty dependency array: the handlers are the two
    objects of the mount, which saw both counters at 0.  Counter as
    dependency: each handler saw the current value of its counter. *)
Definition inlineAt (count1 count2 : Z) (m : nat) (out : list Line)
    (pending : bool) : Root :=
  settledAt Inline count1 count2 m count1 (S m) count2 out
    (seq 0 (S (S m))) (S (S m)) pending.

Definition noDepsAt (count1 count2 : Z) (out : list Line) (n : nat)
    (pending : bool) : Root :=
  settledAt CallbackNoDeps count1 count2 0 0 1 0 out [0; 1]%nat n pending.

Definition depsAt (count1 count2 : Z) (r1 r2 : nat) (out : list Line)
    (members : list nat) (n : nat) (pending : bool) : Root :=
  settledAt CallbackDeps count1 count2 r1 count1 r2 count2 out members n pending.

(** What the console of the variant with an empty dependency array looks
    like: every logged set is the pair of handlers of the mount, two
    function objects were created per execution of the component function,
    and the memo body ran once for the mount and once more when the first
    counter left 0. *)
Definition noDepsConsole (out : list Line) (n : nat) (count1 : Z) : Prop :=
  (forall refs, In (Members refs) out -> refs = [0; 1]%nat) /\
  n = (2 * appRuns out)%nat /\
  Z.of_nat (memoRuns out) = 1 + count1.

End Lesson.

(** * Properties *)

Lemma mount_eq : mount = Some (settledAt 0 0 ["somethingThatTakesLong"]).
Proof. reflexivity. Qed.

(** ** One press, from a settled state *)

Lemma succ_eqb_false (n : Z) : Z.eqb (n + 1) n = false.
Proof. apply Z.eqb_neq. lia. Qed.

Lemma Settled_mount : exists w, mount = Some w /\ Settled w.
Proof.
  eexists. split; [apply mount_eq|].
  now exists 0, 0, ["somethingThatTakesLong"].
Qed.

(** A render over consistent cells recomputes the memo exactly when the
    [count1] it sees differs from the stored dependency. *)
Lemma renderRoot_update (count1 count2 dep : Z) (out : list string) :
  renderRoot (Some [StateHook count1; StateHook count2; MemoHook (dep * 60 * 5) [dep]]) out
  = Some (settledAt count1 count2
            (out ++ if Z.eqb count1 dep then [] else ["somethingThatTakesLong"])).
Proof.
  unfold renderRoot, App, bind, useState, useMemo, takesLong; cbn.
  destruct (Z.eqb_spec count1 dep) as [->|Hne]; cbn.
  - now rewrite app_nil_r.
  - reflexivity.
Qed.

Lemma click_Increase1 (count1 count2 : Z) (out : list string) :
  click Increase1 (settledAt count1 count2 out)
  = Some (settledAt (count1 + 1) count2 (out ++ ["somethingThatTakesLong"])).
Proof.
  unfold click, dispatchSetState; cbn.
  rewrite succ_eqb_false, renderRoot_update, succ_eqb_false.
  reflexivity.
Qed.

Lemma click_Increase2 (count1 count2 : Z) (out : list string) :
  click Increase2 (settledAt count1 count2 out)
  = Some (settledAt count1 (count2 + 1) out).
Proof.
  unfold click, dispatchSetState; cbn.
  rewrite succ_eqb_false, renderRoot_update, Z.eqb_refl, app_nil_r.
  reflexivity.
Qed.

Lemma Settled_click (b : Button) (w : Root) :
  Settled w -> exists w', click b w = Some w' /\ Settled w'.
Proof.
  intros (c1 & c2 & out & ->).
  destruct b; eexists; (split; [first [apply click_Increase1 | apply click_Increase2]|]);
    unfold Settled; eauto.
Qed.

(** ** Sequences of presses *)

Lemma presses_cons_same (b : Button) (bs : list Button) :
  presses b (b :: bs) = S (presses b bs).
Proof. unfold presses; cbn. destruct (Button_eq_dec b b); congruence. Qed.

Lemma presses_cons_other (a b : Button) (bs : list Button) :
  a <> b -> presses b (a :: bs) = presses b bs.
Proof. intros H; unfold presses; cbn. destruct (Button_eq_dec a b); congruence. Qed.

Lemma clicks_settledAt (bs : list Button) :
  forall count1 count2 out,
    clicks bs (settledAt count1 count2 out)
    = Some (settledAt (count1 + Z.of_nat (presses Increase1 bs))
                      (count2 + Z.of_nat (presses Increase2 bs))
                      (out ++ repeat "somethingThatTakesLong" (presses Increase1 bs))).
Proof.
  induction bs as [|b bs IH]; intros count1 count2 out.
  - cbn. now rewrite !Z.add_0_r, app_nil_r.
  - destruct b; cbn [clicks].
    + rewrite click_Increase1, IH, presses_cons_same.
      rewrite (presses_cons_other Increase1 Increase2) by discriminate.
      rewrite Nat2Z.inj_succ, <- app_assoc. cbn [repeat app].
      f_equal. f_equal. lia.
    + rewrite click_Increase2, IH, presses_cons_same.
      rewrite (presses_cons_other Increase2 Increase1) by discriminate.
      rewrite Nat2Z.inj_succ. f_equal. f_equal. lia.
Qed.

Lemma session_eq (bs : list Button) :
  session bs
  = Some (settledAt (Z.of_nat (presses Increase1 bs))
                    (Z.of_nat (presses Increase2 bs))
                    (repeat "somethingThatTakesLong" (S (presses Increase1 bs)))).
Proof.
  unfold session. rewrite mount_eq, clicks_settledAt. reflexivity.
Qed.

Lemma session_Settled (bs : list Button) :
  exists w, session bs = Some w /\ Settled w.
Proof.
  eexists. split; [apply session_eq|]. unfold Settled; eauto.
Qed.

Lemma clicks_app (bs bs' : list Button) (w : Root) :
  clicks (bs ++ bs') w
  = match clicks bs w with Some w' => clicks bs' w' | None => None end.
Proof.
  revert w. induction bs as [|b bs IH]; intros w; cbn; [reflexivity|].
  destruct (click b w); [apply IH | reflexivity].
Qed.

Lemma presses_app (b : Button) (bs bs' : list Button) :
  presses b (bs ++ bs') = (presses b bs + presses b bs')%nat.
Proof. apply count_occ_app. Qed.

(** ** The renders of a session *)

Lemma renders_settledAt_cons (b : Button) (bs : list Button) (count1 count2 : Z)
    (out : list string) :
  renders (b :: bs) (settledAt count1 count2 out)
  = settledAt count1 count2 out ::
    match b with
    | Increase1 =>
        renders bs (settledAt (count1 + 1) count2 (out ++ ["somethingThatTakesLong"]))
    | Increase2 => renders bs (settledAt count1 (count2 + 1) out)
    end.
Proof.
  destruct b; cbn [renders].
  - now rewrite click_Increase1.
  - now rewrite click_Increase2.
Qed.

Lemma renders_head (bs : list Button) (w : Root) :
  exists rest, renders bs w = w :: rest.
Proof. destruct bs; cbn; eauto. Qed.

Lemma renders_length (bs : list Button) :
  forall count1 count2 out,
    List.length (renders bs (settledAt count1 count2 out)) = S (List.length bs).
Proof.
  induction bs as [|b bs IH]; intros; [reflexivity|].
  rewrite renders_settledAt_cons. cbn [List.length]. f_equal.
  destruct b; apply IH.
Qed.

Lemma changes_renders (bs : list Button) :
  forall count1 count2 out,
    changes (map Counter1 (renders bs (settledAt count1 count2 out)))
    = presses Increase1 bs.
Proof.
  induction bs as [|b bs IH]; intros count1 count2 out; [reflexivity|].
  rewrite renders_settledAt_cons.
  destruct b.
  - specialize (IH (count1 + 1) count2 (out ++ ["somethingThatTakesLong"])).
    destruct (renders_head bs (settledAt (count1 + 1) count2
                                 (out ++ ["somethingThatTakesLong"]))) as [rest E].
    rewrite E in IH |- *. cbn [map changes] in IH |- *.
    rewrite IH, presses_cons_same.
    replace (Counter1 (settledAt count1 count2 out) =?
             Counter1 (settledAt (count1 + 1) count2 (out ++ ["somethingThatTakesLong"])))
      with false; [reflexivity|].
    symmetry. apply Z.eqb_neq. cbn. lia.
  - specialize (IH count1 (count2 + 1) out).
    destruct (renders_head bs (settledAt count1 (count2 + 1) out)) as [rest E].
    rewrite E in IH |- *. cbn [map changes] in IH |- *.
    rewrite IH, presses_cons_other by discriminate.
    replace (Counter1 (settledAt count1 count2 out) =?
             Counter1 (settledAt count1 (count2 + 1) out)) with true; [reflexivity|].
    symmetry. apply Z.eqb_eq. reflexivity.
Qed.

(** No render of a run shows a [count1] below the one it started from. *)
Lemma renders_lower_bound (bs : list Button) :
  forall count1 count2 out x,
    In x (map Counter1 (renders bs (settledAt count1 count2 out))) -> count1 <= x.
Proof.
  induction bs as [|b bs IH]; intros count1 count2 out x.
  - cbn. intros [<-|[]]. lia.
  - rewrite renders_settledAt_cons. cbn [map In].
    intros [<-|Hin]; [cbn; lia|].
    destruct b; apply IH in Hin; lia.
Qed.

Lemma nodup_renders (bs : list Button) :
  forall count1 count2 out,
    List.length (nodup Z.eq_dec (map Counter1 (renders bs (settledAt count1 count2 out))))
    = S (presses Increase1 bs).
Proof.
  induction bs as [|b bs IH]; intros count1 count2 out; [reflexivity|].
  rewrite renders_settledAt_cons. cbn [map nodup].
  destruct b.
  - rewrite presses_cons_same.
    destruct (in_dec Z.eq_dec _ _) as [Hin|_].
    + apply renders_lower_bound in Hin. cbn in Hin. lia.
    + cbn [List.length]. f_equal. apply IH.
  - rewrite presses_cons_other by discriminate.
    destruct (in_dec Z.eq_dec _ _) as [_|Hout].
    + apply IH.
    + exfalso. apply Hout.
      destruct (renders_head bs (settledAt count1 (count2 + 1) out)) as [rest ->].
      now left.
Qed.

(** ** Numbers: integer arithmetic is the arithmetic of the source below 2^53 *)

Lemma round_exact (z : Z) : Z.abs z < 2 ^ 53 -> Number.round z = z.
Proof.
  intros H. unfold Number.round.
  destruct (Z.ltb_spec (Z.log2 (Z.abs z)) 53) as [_|Hge]; [reflexivity|].
  exfalso.
  destruct (Z.eq_dec (Z.abs z) 0) as [E|NE].
  - rewrite E in Hge. cbn in Hge. lia.
  - assert (Hpos : 0 < Z.abs z) by lia.
    apply (Z.log2_lt_pow2 _ 53) in H; lia.
Qed.

(** X5: for a count that is not negative and whose product with 300 is
    below [2^53], the sum of the handler and the product of the memo body,
    evaluated as doubles, are the exact integers. *)
Lemma number_model_exact (count1 : Z) :
  0 <= count1 -> count1 * 300 < 2 ^ 53 ->
  Number.add count1 1 = count1 + 1 /\
  Number.mul (Number.mul count1 60) 5 = count1 * 60 * 5.
Proof.
  intros H0 H1. unfold Number.add, Number.mul.
  rewrite (round_exact (count1 + 1)) by lia.
  rewrite (round_exact (count1 * 60)) by lia.
  rewrite round_exact by lia.
  split; reflexivity.
Qed.

(** * The claims *)

Ltac session_at bs :=
  eexists; split; [apply (session_eq bs)|].




(** C2: after any finite sequence of presses from the mount, [Counter1] is
    the number of presses of the first button and [Counter2] the number of
    presses of the second, on screen and in the two state cells; and one
    more press of a button adds exactly 1 to its counter. *)
Theorem C2_counters_count_their_presses :
  forall bs, exists w,
    session bs = Some w /\
    Counter1 w = Z.of_nat (presses Increase1 bs) /\
    Counter2 w = Z.of_nat (presses Increase2 bs) /\
    nth_error (fiber w) 0 = Some (StateHook (Counter1 w)) /\
    nth_error (fiber w) 1 = Some (StateHook (Counter2 w)) /\
    (exists w1, click Increase1 w = Some w1 /\ Counter1 w1 = Counter1 w + 1) /\
    (exists w2, click Increase2 w = Some w2 /\ Counter2 w2 = Counter2 w + 1).
Proof.
  intros bs. session_at bs.
  repeat split.
  - eexists. split; [apply click_Increase1 | reflexivity].
  - eexists. split; [apply click_Increase2 | reflexivity].
Qed.

(** C3: from every settled state, [incrementCount1] leaves [Counter2] as it
    was and [incrementCount2] leaves [Counter1] as it was. *)
Theorem C3_increment_leaves_other_counter (w : Root) :
  Settled w ->
  (exists w1, click Increase1 w = Some w1 /\ Counter2 w1 = Counter2 w) /\
  (exists w2, click Increase2 w = Some w2 /\ Counter1 w2 = Counter1 w).
Proof.
  intros (count1 & count2 & out & Hw). subst w.
  split.
  - exists (settledAt (count1 + 1) count2 (out ++ ["somethingThatTakesLong"])).
    split; [apply click_Increase1 | reflexivity].
  - exists (settledAt count1 (count2 + 1) out).
    split; [apply click_Increase2 | reflexivity].
Qed.

Lemma C3_witness :
  Settled (settledAt 4 7 []) /\
  (exists w1, click Increase1 (settledAt 4 7 []) = Some w1 /\ Counter2 w1 = 7) /\
  (exists w2, click Increase2 (settledAt 4 7 []) = Some w2 /\ Counter1 w2 = 4).
Proof.
  assert (H : Settled (settledAt 4 7 [])) by (exists 4, 7, []; reflexivity).
  split; [exact H|].
  exact (C3_increment_leaves_other_counter (settledAt 4 7 []) H).
Defined.

(** C4: the mount runs the memo body once.  After that, in every state of
    every session, a press renders once and that render appends one trace
    line when its [Counter1] differs from the previous render's and none
    when it does not; a press of the second button appends none, a press of
    the first appends one.  Over a whole session the trace has one line for
    the mount and one per render whose [Counter1] differs from the render
    before.  Any re-render, whatever [count1] it sees, runs the body once
    when [count1] is not the value of the previous render and not at all
    when it is.  The body writes exactly one line each time it runs. *)
Theorem C4_recomputed_once_per_Counter1_change :
  (exists w0, mount = Some w0 /\ log w0 = ["somethingThatTakesLong"]) /\
  (forall bs b, exists w w',
      session bs = Some w /\ click b w = Some w' /\
      log w' = log w ++ (if Counter1 w' =? Counter1 w then []
                         else ["somethingThatTakesLong"]) /\
      match b with
      | Increase1 => log w' = log w ++ ["somethingThatTakesLong"]
      | Increase2 => log w' = log w
      end) /\
  (forall bs, exists w,
      session bs = Some w /\
      List.length (sessionRenders bs) = S (List.length bs) /\
      computations w = S (changes (visited bs))) /\
  (forall count1 count2 previous out, exists w,
      renderRoot (Some [StateHook count1; StateHook count2;
                        MemoHook (previous * 60 * 5) [previous]]) out = Some w /\
      log w = out ++ (if count1 =? previous then [] else ["somethingThatTakesLong"])) /\
  (forall count1 r, exists v r',
      takesLong count1 r = Some (v, r') /\
      console r' = console r ++ ["somethingThatTakesLong"]).
Proof.
  split; [|split; [|split; [|split]]].
  - eexists. split; [apply mount_eq | reflexivity].
  - intros bs b. destruct b.
    + do 2 eexists. split; [apply session_eq|]. split; [apply click_Increase1|].
      cbn. rewrite succ_eqb_false. split; reflexivity.
    + do 2 eexists. split; [apply session_eq|]. split; [apply click_Increase2|].
      cbn. rewrite Z.eqb_refl, app_nil_r. split; reflexivity.
  - intros bs. session_at bs.
    unfold visited, sessionRenders. rewrite mount_eq.
    rewrite renders_length, changes_renders.
    split; [reflexivity|].
    unfold computations; cbn [log settledAt]. apply repeat_length.
  - intros count1 count2 previous out. eexists.
    split; [apply renderRoot_update | reflexivity].
  - intros count1 r. do 2 eexists. split; reflexivity.
Qed.

(** C5: the initial render shows [Counter1 = 0], [Counter2 = 0] and
    [DerivedValue = 0]. *)
Theorem C5_initial_render :
  exists w, mount = Some w /\ Counter1 w = 0 /\ Counter2 w = 0 /\ DerivedValue w = 0.
Proof.
  exists (settledAt 0 0 ["somethingThatTakesLong"]).
  repeat split.
Qed.

(** C6: mounting and pressing "Increase Count1" three times ends with
    [Counter1 = 3], [Counter2 = 0], [DerivedValue = 900], and the three
    presses caused 3 recomputations (the trace then holds 4 lines: the
    computation of the mount and these 3, one per value 0, 1, 2, 3 of
    [Counter1] that was shown).  In every session the recomputations since
    the mount are as many as the presses of the first button and the trace
    is as long as the number of distinct [Counter1] values that were shown,
    while the number of renders is one per press plus the mount; in some
    session the recomputations differ from the number of re-renders. *)
Theorem C6_three_presses_of_Increase_Count1 :
  (exists w0 w,
      mount = Some w0 /\
      clicks [Increase1; Increase1; Increase1] w0 = Some w /\
      Counter1 w = 3 /\ Counter2 w = 0 /\ DerivedValue w = 900 /\
      recomputations w0 w = 3%nat /\
      computations w = 4%nat /\
      distinctVisited [Increase1; Increase1; Increase1] = 4%nat) /\
  (forall bs, exists w0 w,
      mount = Some w0 /\ clicks bs w0 = Some w /\
      recomputations w0 w = presses Increase1 bs /\
      computations w = distinctVisited bs /\
      List.length (sessionRenders bs) = S (List.length bs)) /\
  (exists bs w0 w,
      mount = Some w0 /\ clicks bs w0 = Some w /\
      recomputations w0 w <> List.length bs).
Proof.
  split; [|split].
  - do 2 eexists. split; [apply mount_eq|].
    split; [vm_compute; reflexivity|].
    repeat split.
  - intros bs. do 2 eexists. split; [apply mount_eq|].
    split; [apply clicks_settledAt|].
    unfold recomputations, computations, distinctVisited, visited, sessionRenders.
    rewrite mount_eq, nodup_renders, renders_length. cbn [log settledAt].
    rewrite length_app, repeat_length. cbn [List.length].
    repeat split; lia.
  - exists [Increase1; Increase2]. do 2 eexists.
    split; [apply mount_eq|]. split; [vm_compute; reflexivity|].
    vm_compute. discriminate.
Qed.

(** C7, as amended: from any settled state with [Counter1 = 0], pressing
    "Increase Count2" five times adds 5 to [Counter2] (so it ends at 5 when
    it started at 0), leaves [Counter1 = 0] and [DerivedValue = 0], and
    causes no recomputation: the trace is the one before the presses. *)
Theorem C7_five_presses_of_Increase_Count2 (w : Root) :
  Settled w -> Counter1 w = 0 ->
  exists w',
    clicks (repeat Increase2 5) w = Some w' /\
    Counter2 w' = Counter2 w + 5 /\
    (Counter2 w = 0 -> Counter2 w' = 5) /\
    Counter1 w' = 0 /\ DerivedValue w' = 0 /\
    log w' = log w /\ recomputations w w' = 0%nat.
Proof.
  intros (count1 & count2 & out & ->) Hzero.
  cbn in Hzero. subst count1.
  exists (settledAt 0 (count2 + 5) out).
  split.
  - cbn [repeat clicks]. rewrite !click_Increase2.
    do 2 f_equal. lia.
  - unfold recomputations, computations. cbn.
    repeat split; try lia.
Qed.

Lemma C7_witness :
  Settled (settledAt 0 0 ["somethingThatTakesLong"]) /\
  Counter1 (settledAt 0 0 ["somethingThatTakesLong"]) = 0 /\
  exists w',
    clicks (repeat Increase2 5) (settledAt 0 0 ["somethingThatTakesLong"]) = Some w' /\
    Counter2 w' = 5.
Proof.
  assert (H : Settled (settledAt 0 0 ["somethingThatTakesLong"]))
    by (exists 0, 0, ["somethingThatTakesLong"]; reflexivity).
  split; [exact H|]. split; [reflexivity|].
  destruct (C7_five_presses_of_Increase_Count2 _ H eq_refl)
    as (w' & Hrun & _ & Hfive & _).
  exists w'. split; [exact Hrun | apply Hfive; reflexivity].
Defined.

(** C7, as stated, fails: the state reached by one press of the second
    button is settled with [Counter1 = 0], and five more presses end at
    [Counter2 = 6], not 5. *)
Lemma C7_counterexample :
  session [Increase2] = Some (settledAt 0 1 ["somethingThatTakesLong"]) /\
  Settled (settledAt 0 1 ["somethingThatTakesLong"]) /\
  Counter1 (settledAt 0 1 ["somethingThatTakesLong"]) = 0 /\
  exists w',
    clicks (repeat Increase2 5) (settledAt 0 1 ["somethingThatTakesLong"]) = Some w' /\
    Counter2 w' = 6 /\ Counter2 w' <> 5.
Proof.
  split; [reflexivity|].
  split; [exists 0, 1, ["somethingThatTakesLong"]; reflexivity|].
  split; [reflexivity|].
  exists (settledAt 0 6 ["somethingThatTakesLong"]).
  split; [reflexivity|]. split; [reflexivity | discriminate].
Qed.

(** C8: the evaluator is deterministic and pure.  The body given to
    [useMemo] returns the same integer for the same [count1] from any two
    render states; two renders over cells holding the same [count1] return
    the same derived value whatever [count2], the stored dependency and the
    console are; and two settled states with equal [Counter1] show equal
    derived values. *)
Theorem C8_evaluator_deterministic :
  (forall count1 r r',
      option_map fst (takesLong count1 r) = option_map fst (takesLong count1 r') /\
      takesLong count1 r <> None) /\
  (forall count1 count2 count2' dep dep' out out', exists w w',
      renderRoot (Some [StateHook count1; StateHook count2;
                        MemoHook (dep * 60 * 5) [dep]]) out = Some w /\
      renderRoot (Some [StateHook count1; StateHook count2';
                        MemoHook (dep' * 60 * 5) [dep']]) out' = Some w' /\
      DerivedValue w = DerivedValue w') /\
  (forall w w',
      Settled w -> Settled w' -> Counter1 w = Counter1 w' ->
      DerivedValue w = DerivedValue w').
Proof.
  split; [|split].
  - intros count1 r r'. split; [reflexivity | discriminate].
  - intros. do 2 eexists.
    split; [apply renderRoot_update|]. split; [apply renderRoot_update|].
    reflexivity.
  - intros w w' (c1 & c2 & out & ->) (c1' & c2' & out' & ->) Heq.
    cbn in Heq. unfold DerivedValue; cbn. congruence.
Qed.

Lemma C8_witness :
  Settled (settledAt 2 0 []) /\ Settled (settledAt 2 9 ["somethingThatTakesLong"]) /\
  Counter1 (settledAt 2 0 []) = Counter1 (settledAt 2 9 ["somethingThatTakesLong"]) /\
  DerivedValue (settledAt 2 0 [])
  = DerivedValue (settledAt 2 9 ["somethingThatTakesLong"]).
Proof.
  assert (H : Settled (settledAt 2 0 [])) by (exists 2, 0, []; reflexivity).
  assert (H' : Settled (settledAt 2 9 ["somethingThatTakesLong"]))
    by (exists 2, 9, ["somethingThatTakesLong"]; reflexivity).
  split; [exact H|]. split; [exact H'|]. split; [reflexivity|].
  exact (proj2 (proj2 C8_evaluator_deterministic) _ _ H H' eq_refl).
Defined.

(** C9: in every state reached from the mount by presses, [Counter1],
    [Counter2] and the derived value are non-negative. *)
Theorem C9_counters_nonnegative :
  forall bs, exists w,
    session bs = Some w /\
    0 <= Counter1 w /\ 0 <= Counter2 w /\ 0 <= DerivedValue w.
Proof.
  intros bs. session_at bs.
  unfold Counter1, Counter2, DerivedValue; cbn.
  pose proof (Nat2Z.is_nonneg (presses Increase1 bs)).
  pose proof (Nat2Z.is_nonneg (presses Increase2 bs)).
  lia.
Qed.

(** C10: in every state reached from the mount the derived value is a
    multiple of 300; a press of the first button adds exactly 300 to it and
    a press of the second leaves it unchanged; and it never decreases along
    any continuation of the session. *)
Theorem C10_derived_value_steps_by_300 :
  forall bs, exists w,
    session bs = Some w /\
    (300 | DerivedValue w) /\
    (exists w1, click Increase1 w = Some w1 /\ DerivedValue w1 = DerivedValue w + 300) /\
    (exists w2, click Increase2 w = Some w2 /\ DerivedValue w2 = DerivedValue w) /\
    (forall bs', exists w',
        clicks bs' w = Some w' /\ session (bs ++ bs') = Some w' /\
        DerivedValue w <= DerivedValue w').
Proof.
  intros bs. session_at bs.
  split; [|split; [|split; [|]]].
  - exists (Z.of_nat (presses Increase1 bs)). unfold DerivedValue; cbn. ring.
  - eexists. split; [apply click_Increase1|]. unfold DerivedValue; cbn. ring.
  - eexists. split; [apply click_Increase2|]. reflexivity.
  - intros bs'. eexists. split; [apply clicks_settledAt|].
    split.
    + unfold session. rewrite mount_eq, clicks_app, !clicks_settledAt.
      reflexivity.
    + unfold DerivedValue; cbn.
      pose proof (Nat2Z.is_nonneg (presses Increase1 bs')). lia.
Qed.

(** * Further properties of the component *)

(** X1: the state a session ends in (cells, screen, handlers and console)
    depends only on how many times each button was pressed, not on the
    order of the presses. *)
Theorem session_order_irrelevant (bs bs' : list Button) :
  Permutation bs bs' -> session bs = session bs'.
Proof.
  intros Hperm. rewrite !session_eq. unfold presses.
  pose proof (proj1 (Permutation_count_occ Button_eq_dec bs bs') Hperm) as Hocc.
  now rewrite !Hocc.
Qed.

Lemma session_order_irrelevant_witness :
  Permutation [Increase1; Increase2; Increase1] [Increase2; Increase1; Increase1] /\
  session [Increase1; Increase2; Increase1] = session [Increase2; Increase1; Increase1].
Proof.
  assert (H : Permutation [Increase1; Increase2; Increase1]
                          [Increase2; Increase1; Increase1])
    by (apply perm_swap).
  split; [exact H|].
  exact (session_order_irrelevant _ _ H).
Defined.

(** X2: a handler keeps the value its render saw.  The handler of a state
    [w], called in any later state [w'] of the session, sets its counter to
    the value shown in [w] plus one (and the derived value follows), however
    many presses lie between; the other counter stays as in [w'].  Called a
    second time right after its own press, it changes nothing. *)
Theorem handler_sets_value_of_its_render :
  forall bs bs', exists w w',
    session bs = Some w /\ clicks bs' w = Some w' /\
    (exists w1,
        dispatchSetState (IncreaseCount1 (screen w) tt) w' = Some w1 /\
        Counter1 w1 = Counter1 w + 1 /\ Counter2 w1 = Counter2 w' /\
        DerivedValue w1 = (Counter1 w + 1) * 300) /\
    (exists w2,
        dispatchSetState (IncreaseCount2 (screen w) tt) w' = Some w2 /\
        Counter2 w2 = Counter2 w + 1 /\ Counter1 w2 = Counter1 w' /\
        DerivedValue w2 = DerivedValue w') /\
    (exists w1,
        click Increase1 w = Some w1 /\
        dispatchSetState (IncreaseCount1 (screen w) tt) w1 = Some w1).
Proof.
  intros bs bs'. do 2 eexists.
  split; [apply session_eq|]. split; [apply clicks_settledAt|].
  set (a := Z.of_nat (presses Increase1 bs)).
  set (b := Z.of_nat (presses Increase2 bs)).
  set (p := Z.of_nat (presses Increase1 bs')).
  set (q := Z.of_nat (presses Increase2 bs')).
  split; [|split].
  - unfold dispatchSetState. cbn [screen settledAt elementOf IncreaseCount1
                                   queue action fiber nth_error].
    destruct (Z.eqb_spec (a + 1) (a + p)) as [E|NE].
    + eexists. split; [reflexivity|].
      unfold Counter1, Counter2, DerivedValue; cbn. repeat split; lia.
    + cbn [setHookState]. rewrite renderRoot_update.
      eexists. split; [reflexivity|].
      unfold Counter1, Counter2, DerivedValue; cbn. repeat split; lia.
  - unfold dispatchSetState. cbn [screen settledAt elementOf IncreaseCount2
                                   queue action fiber nth_error].
    destruct (Z.eqb_spec (b + 1) (b + q)) as [E|NE].
    + eexists. split; [reflexivity|].
      unfold Counter1, Counter2, DerivedValue; cbn. repeat split; lia.
    + cbn [setHookState]. rewrite renderRoot_update, Z.eqb_refl.
      eexists. split; [reflexivity|].
      unfold Counter1, Counter2, DerivedValue; cbn. repeat split; lia.
  - eexists. split; [apply click_Increase1|].
    unfold dispatchSetState. cbn. now rewrite Z.eqb_refl.
Qed.

(** X3: a press gives the pressed button a handler that performs a new
    setter call and leaves the other button with a handler that performs
    the same setter call as before; every handler on screen targets its own
    cell with the value shown plus one. *)
Theorem press_renews_only_its_own_handler :
  forall bs, exists w w1 w2,
    session bs = Some w /\
    click Increase1 w = Some w1 /\ click Increase2 w = Some w2 /\
    IncreaseCount1 (screen w) tt = mkDispatch 0 (Counter1 w + 1) /\
    IncreaseCount2 (screen w) tt = mkDispatch 1 (Counter2 w + 1) /\
    IncreaseCount2 (screen w1) tt = IncreaseCount2 (screen w) tt /\
    IncreaseCount1 (screen w1) tt <> IncreaseCount1 (screen w) tt /\
    IncreaseCount1 (screen w2) tt = IncreaseCount1 (screen w) tt /\
    IncreaseCount2 (screen w2) tt <> IncreaseCount2 (screen w) tt.
Proof.
  intros bs. do 3 eexists.
  split; [apply session_eq|].
  split; [apply click_Increase1|]. split; [apply click_Increase2|].
  cbn. repeat split; try (intros H; injection H; lia).
Qed.

(** X4: the console only grows, and only by the line of the memo body.
    Continuing a session by [bs'] appends one such line per press of the
    first button in [bs'] to the console the session had, and no line of the
    console is anything else. *)
Theorem console_only_grows :
  forall bs bs', exists w w',
    session bs = Some w /\ session (bs ++ bs') = Some w' /\
    log w' = log w ++ repeat "somethingThatTakesLong" (presses Increase1 bs') /\
    (forall line, In line (log w') -> line = "somethingThatTakesLong").
Proof.
  intros bs bs'. do 2 eexists.
  split; [apply session_eq|]. split; [apply session_eq|].
  cbn [log settledAt]. split.
  - rewrite presses_app, <- repeat_app. reflexivity.
  - intros line Hin. now apply repeat_spec in Hin.
Qed.

(** ** The arithmetic of the handlers and of the memo body, as doubles *)

Lemma number_model_exact_witness :
  0 <= 3 /\ 3 * 300 < 2 ^ 53 /\
  Number.add 3 1 = 3 + 1 /\
  Number.mul (Number.mul 3 60) 5 = 3 * 60 * 5.
Proof.
  assert (H0 : 0 <= 3) by lia.
  assert (H1 : 3 * 300 < 2 ^ 53) by (vm_compute; reflexivity).
  split; [exact H0|]. split; [exact H1|].
  exact (number_model_exact 3 H0 H1).
Defined.

Lemma round_even_above (z : Z) : 2 ^ 53 <= Z.abs z -> Z.even (Number.round z) = true.
Proof.
  intros H. unfold Number.round. cbv zeta.
  assert (Hlog : 53 <= Z.log2 (Z.abs z)) by (apply Z.log2_le_pow2; lia).
  destruct (Z.ltb_spec (Z.log2 (Z.abs z)) 53) as [Hlt|_]; [lia|].
  remember (Z.log2 (Z.abs z) - 52) as e eqn:He.
  rewrite Z.shiftl_mul_pow2 by lia.
  assert (Hpow : 2 ^ e = 2 * 2 ^ (e - 1)).
  { rewrite <- Z.pow_succ_r by lia. f_equal. lia. }
  rewrite Hpow, !Z.even_mul. cbn.
  now rewrite !orb_true_r.
Qed.

(** X6: where the arithmetic of the source leaves the integers.  At
    [count1 = 2^53] the sum [count1 + 1] of the handler is [count1] again,
    and from [2^53] on no even [count1] has [count1 + 1] as its sum: sums
    and products of that size are even. *)
Theorem increment_inexact_from_2_53 (count1 : Z) :
  2 ^ 53 <= count1 -> Z.even count1 = true ->
  Number.add (2 ^ 53) 1 = 2 ^ 53 /\ Number.add count1 1 <> count1 + 1.
Proof.
  intros Hbig Heven. split; [vm_compute; reflexivity|].
  unfold Number.add. intros Heq.
  assert (Hround : Z.even (Number.round (count1 + 1)) = true)
    by (apply round_even_above; lia).
  rewrite Heq, Z.add_1_r, Z.even_succ, <- Z.negb_even, Heven in Hround.
  discriminate.
Qed.

Lemma increment_inexact_from_2_53_witness :
  2 ^ 53 <= 2 ^ 53 + 2 /\ Z.even (2 ^ 53 + 2) = true /\
  Number.add (2 ^ 53 + 2) 1 <> 2 ^ 53 + 2 + 1.
Proof.
  assert (H0 : 2 ^ 53 <= 2 ^ 53 + 2) by lia.
  assert (H1 : Z.even (2 ^ 53 + 2) = true) by (vm_compute; reflexivity).
  split; [exact H0|]. split; [exact H1|].
  exact (proj2 (increment_inexact_from_2_53 (2 ^ 53 + 2) H0 H1)).
Defined.

(** * The variants of the commentary *)

Lemma lesson_mount_eq (h : Lesson.Handlers) :
  Lesson.mount h
  = Some (Lesson.settledAt h 0 0 0 0 1 0
            [Lesson.Members [0; 1]%nat; Lesson.Text "somethingThatTakesLong"]
            [0; 1]%nat 2 false).
Proof. destruct h; reflexivity. Qed.

Ltac lesson_step :=
  unfold Lesson.click, Lesson.dispatchSetState;
  cbn [Lesson.screen Lesson.settledAt Lesson.IncreaseCount1 Lesson.IncreaseCount2
       Lesson.call Lesson.incrementFn Lesson.fiber Lesson.cellsOf
       queue action nth_error Lesson.setHookState Lesson.log Lesson.collected
       Lesson.objects Lesson.lanes].

Ltac lesson_render :=
  unfold Lesson.runApp, Lesson.App, Lesson.bind, Lesson.useState, Lesson.handler,
    Lesson.useMemo, Lesson.useCallback, Lesson.takesLong, Lesson.arrow; cbn.

Ltac lesson_compare :=
  repeat (progress (rewrite ?succ_eqb_false, ?Z.eqb_refl; cbn)).

Lemma lesson_inline_click1 (count1 count2 : Z) (r1 r2 : nat) (out : list Lesson.Line)
    (members : list nat) (n : nat) (pending : bool) :
  Lesson.click Lesson.Inline Increase1
    (Lesson.settledAt Lesson.Inline count1 count2 r1 count1 r2 count2 out members n pending)
  = Some (Lesson.settledAt Lesson.Inline (count1 + 1) count2 n (count1 + 1) (S n) count2
            (out ++ [Lesson.Members (Lesson.setAdd (S n) (Lesson.setAdd n members));
                     Lesson.Text "somethingThatTakesLong"])
            (Lesson.setAdd (S n) (Lesson.setAdd n members)) (S (S n)) true).
Proof.
  lesson_step. rewrite succ_eqb_false. lesson_render. lesson_compare.
  rewrite <- app_assoc. reflexivity.
Qed.

Lemma lesson_inline_click2 (count1 count2 : Z) (r1 r2 : nat) (out : list Lesson.Line)
    (members : list nat) (n : nat) (pending : bool) :
  Lesson.click Lesson.Inline Increase2
    (Lesson.settledAt Lesson.Inline count1 count2 r1 count1 r2 count2 out members n pending)
  = Some (Lesson.settledAt Lesson.Inline count1 (count2 + 1) n count1 (S n) (count2 + 1)
            (out ++ [Lesson.Members (Lesson.setAdd (S n) (Lesson.setAdd n members))])
            (Lesson.setAdd (S n) (Lesson.setAdd n members)) (S (S n)) true).
Proof.
  lesson_step. rewrite succ_eqb_false. lesson_render. lesson_compare.
  reflexivity.
Qed.

(** With an empty dependency array the handlers of the mount stay: they
    saw [seen1] and [seen2].  A press sets the counter to that value plus
    one.  When the counter already holds it, the component function runs
    once more if lanes are pending (the set is logged again, nothing else
    changes) and nothing happens otherwise. *)
Lemma lesson_nodeps_click1 (count1 count2 : Z) (r1 r2 : nat) (seen1 seen2 : Z)
    (out : list Lesson.Line) (members : list nat) (n : nat) (pending : bool) :
  Lesson.click Lesson.CallbackNoDeps Increase1
    (Lesson.settledAt Lesson.CallbackNoDeps count1 count2 r1 seen1 r2 seen2
       out members n pending)
  = Some (if seen1 + 1 =? count1
          then
            if pending
            then Lesson.settledAt Lesson.CallbackNoDeps count1 count2 r1 seen1 r2 seen2
                   (out ++ [Lesson.Members (Lesson.setAdd r2 (Lesson.setAdd r1 members))])
                   (Lesson.setAdd r2 (Lesson.setAdd r1 members)) (S (S n)) false
            else Lesson.settledAt Lesson.CallbackNoDeps count1 count2 r1 seen1 r2 seen2
                   out members n false
          else Lesson.settledAt Lesson.CallbackNoDeps (seen1 + 1) count2 r1 seen1 r2 seen2
                 (out ++ [Lesson.Members (Lesson.setAdd r2 (Lesson.setAdd r1 members));
                          Lesson.Text "somethingThatTakesLong"])
                 (Lesson.setAdd r2 (Lesson.setAdd r1 members)) (S (S n)) true).
Proof.
  lesson_step. destruct (Z.eqb_spec (seen1 + 1) count1) as [E|NE].
  - destruct pending; cbn [andb negb]; [|reflexivity].
    subst count1. lesson_render. lesson_compare. reflexivity.
  - cbn [andb]. lesson_render.
    destruct (Z.eqb_spec (seen1 + 1) count1) as [E|_]; [contradiction|]; cbn.
    rewrite <- app_assoc. reflexivity.
Qed.

Lemma lesson_nodeps_click2 (count1 count2 : Z) (r1 r2 : nat) (seen1 seen2 : Z)
    (out : list Lesson.Line) (members : list nat) (n : nat) (pending : bool) :
  Lesson.click Lesson.CallbackNoDeps Increase2
    (Lesson.settledAt Lesson.CallbackNoDeps count1 count2 r1 seen1 r2 seen2
       out members n pending)
  = Some (if seen2 + 1 =? count2
          then
            if pending
            then Lesson.settledAt Lesson.CallbackNoDeps count1 count2 r1 seen1 r2 seen2
                   (out ++ [Lesson.Members (Lesson.setAdd r2 (Lesson.setAdd r1 members))])
                   (Lesson.setAdd r2 (Lesson.setAdd r1 members)) (S (S n)) false
            else Lesson.settledAt Lesson.CallbackNoDeps count1 count2 r1 seen1 r2 seen2
                   out members n false
          else Lesson.settledAt Lesson.CallbackNoDeps count1 (seen2 + 1) r1 seen1 r2 seen2
                 (out ++ [Lesson.Members (Lesson.setAdd r2 (Lesson.setAdd r1 members))])
                 (Lesson.setAdd r2 (Lesson.setAdd r1 members)) (S (S n)) true).
Proof.
  lesson_step. destruct (Z.eqb_spec (seen2 + 1) count2) as [E|NE].
  - destruct pending; cbn [andb negb]; [|reflexivity].
    subst count2. lesson_render. lesson_compare. reflexivity.
  - cbn [andb]. lesson_render. lesson_compare. reflexivity.
Qed.

Lemma lesson_deps_click1 (count1 count2 : Z) (r1 r2 : nat) (out : list Lesson.Line)
    (members : list nat) (n : nat) (pending : bool) :
  Lesson.click Lesson.CallbackDeps Increase1
    (Lesson.settledAt Lesson.CallbackDeps count1 count2 r1 count1 r2 count2
       out members n pending)
  = Some (Lesson.settledAt Lesson.CallbackDeps (count1 + 1) count2 n (count1 + 1) r2 count2
            (out ++ [Lesson.Members (Lesson.setAdd r2 (Lesson.setAdd n members));
                     Lesson.Text "somethingThatTakesLong"])
            (Lesson.setAdd r2 (Lesson.setAdd n members)) (S (S n)) true).
Proof.
  lesson_step. rewrite succ_eqb_false. lesson_render. lesson_compare.
  rewrite <- app_assoc. reflexivity.
Qed.

Lemma lesson_deps_click2 (count1 count2 : Z) (r1 r2 : nat) (out : list Lesson.Line)
    (members : list nat) (n : nat) (pending : bool) :
  Lesson.click Lesson.CallbackDeps Increase2
    (Lesson.settledAt Lesson.CallbackDeps count1 count2 r1 count1 r2 count2
       out members n pending)
  = Some (Lesson.settledAt Lesson.CallbackDeps count1 (count2 + 1) r1 count1 (S n) (count2 + 1)
            (out ++ [Lesson.Members (Lesson.setAdd (S n) (Lesson.setAdd r1 members))])
            (Lesson.setAdd (S n) (Lesson.setAdd r1 members)) (S (S n)) true).
Proof.
  lesson_step. rewrite succ_eqb_false. lesson_render. lesson_compare.
  reflexivity.
Qed.

Lemma setAdd_fresh (x : nat) (members : list nat) :
  ~ In x members -> Lesson.setAdd x members = members ++ [x].
Proof.
  intros Hout. unfold Lesson.setAdd.
  destruct (existsb (Nat.eqb x) members) eqn:E; [|reflexivity].
  apply existsb_exists in E as (y & Hy & Heq).
  apply Nat.eqb_eq in Heq. subst y. contradiction.
Qed.

Lemma setAdd_member (x : nat) (members : list nat) :
  In x members -> Lesson.setAdd x members = members.
Proof.
  intros Hin. unfold Lesson.setAdd.
  destruct (existsb (Nat.eqb x) members) eqn:E; [reflexivity|].
  assert (existsb (Nat.eqb x) members = true) as E'.
  { apply existsb_exists. exists x. split; [assumption | apply Nat.eqb_refl]. }
  congruence.
Qed.

Lemma setAdd_seq (n : nat) : Lesson.setAdd n (seq 0 n) = seq 0 (S n).
Proof.
  rewrite setAdd_fresh, seq_S; [reflexivity|].
  rewrite in_seq. lia.
Qed.

(** ** Inline handlers *)

Lemma lesson_inline_clicks (bs : list Button) :
  forall count1 count2 m out pending, exists out' pending',
    Lesson.clicks Lesson.Inline bs (Lesson.inlineAt count1 count2 m out pending)
    = Some (Lesson.inlineAt (count1 + Z.of_nat (presses Increase1 bs))
                            (count2 + Z.of_nat (presses Increase2 bs))
                            (m + 2 * List.length bs) out' pending').
Proof.
  induction bs as [|b bs IH]; intros count1 count2 m out pending.
  - exists out, pending. cbn. now rewrite !Z.add_0_r, Nat.add_0_r.
  - cbn [Lesson.clicks]. unfold Lesson.inlineAt at 1.
    destruct b.
    + rewrite lesson_inline_click1, !setAdd_seq.
      destruct (IH (count1 + 1) count2 (S (S m))
                   (out ++ [Lesson.Members (seq 0 (S (S (S (S m)))));
                            Lesson.Text "somethingThatTakesLong"]) true)
        as (out' & pending' & E).
      exists out', pending'. unfold Lesson.inlineAt at 1 in E. rewrite E.
      rewrite presses_cons_same, (presses_cons_other Increase1 Increase2) by discriminate.
      do 2 f_equal; cbn [List.length]; lia.
    + rewrite lesson_inline_click2, !setAdd_seq.
      destruct (IH count1 (count2 + 1) (S (S m))
                   (out ++ [Lesson.Members (seq 0 (S (S (S (S m)))))]) true)
        as (out' & pending' & E).
      exists out', pending'. unfold Lesson.inlineAt at 1 in E. rewrite E.
      rewrite presses_cons_same, (presses_cons_other Increase2 Increase1) by discriminate.
      do 2 f_equal; cbn [List.length]; lia.
Qed.

(** ** Handlers under [useCallback] with an empty dependency array *)

Lemma appRuns_app (out more : list Lesson.Line) :
  Lesson.appRuns (out ++ more) = (Lesson.appRuns out + Lesson.appRuns more)%nat.
Proof. unfold Lesson.appRuns. now rewrite filter_app, length_app. Qed.

Lemma memoRuns_app (out more : list Lesson.Line) :
  Lesson.memoRuns (out ++ more) = (Lesson.memoRuns out + Lesson.memoRuns more)%nat.
Proof. unfold Lesson.memoRuns. now rewrite filter_app, length_app. Qed.

(** A bail-out render leaves the console in shape: it logs the set. *)
Lemma noDepsConsole_rerun (out : list Lesson.Line) (n : nat) (count1 : Z) :
  Lesson.noDepsConsole out n count1 ->
  Lesson.noDepsConsole (out ++ [Lesson.Members [0; 1]%nat]) (S (S n)) count1.
Proof.
  intros (Hmem & Hn & Hmemo). repeat split.
  - intros refs Hin. apply in_app_or in Hin as [Hin|[Heq|[]]]; [now apply Hmem|].
    now injection Heq as <-.
  - rewrite appRuns_app.
    change (Lesson.appRuns [Lesson.Members [0; 1]%nat]) with 1%nat. lia.
  - rewrite memoRuns_app.
    change (Lesson.memoRuns [Lesson.Members [0; 1]%nat]) with 0%nat. lia.
Qed.

(** So does the update that moves the first counter: it logs the set and
    runs the memo body. *)
Lemma noDepsConsole_update (out : list Lesson.Line) (n : nat) (count1 : Z) :
  Lesson.noDepsConsole out n count1 ->
  Lesson.noDepsConsole
    (out ++ [Lesson.Members [0; 1]%nat; Lesson.Text "somethingThatTakesLong"])
    (S (S n)) (count1 + 1).
Proof.
  intros (Hmem & Hn & Hmemo). repeat split.
  - intros refs Hin.
    apply in_app_or in Hin as [Hin|[Heq|[Heq|[]]]]; [now apply Hmem| |discriminate].
    now injection Heq as <-.
  - rewrite appRuns_app.
    change (Lesson.appRuns [Lesson.Members [0; 1]%nat;
                            Lesson.Text "somethingThatTakesLong"]) with 1%nat. lia.
  - rewrite memoRuns_app.
    change (Lesson.memoRuns [Lesson.Members [0; 1]%nat;
                             Lesson.Text "somethingThatTakesLong"]) with 1%nat. lia.
Qed.

Lemma lesson_nodeps_clicks (bs : list Button) :
  forall count1 count2 out n pending,
    (count1 = 0 \/ count1 = 1) -> (count2 = 0 \/ count2 = 1) ->
    Lesson.noDepsConsole out n count1 ->
    exists out' n' pending',
      Lesson.clicks Lesson.CallbackNoDeps bs (Lesson.noDepsAt count1 count2 out n pending)
      = Some (Lesson.noDepsAt (Z.min 1 (count1 + Z.of_nat (presses Increase1 bs)))
                              (Z.min 1 (count2 + Z.of_nat (presses Increase2 bs)))
                              out' n' pending') /\
      Lesson.noDepsConsole out' n'
        (Z.min 1 (count1 + Z.of_nat (presses Increase1 bs))).
Proof.
  induction bs as [|b bs IH]; intros count1 count2 out n pending H1 H2 Hcon.
  - exists out, n, pending. cbn. rewrite !Z.add_0_r.
    replace (Z.min 1 count1) with count1 by lia.
    replace (Z.min 1 count2) with count2 by lia.
    split; [reflexivity | exact Hcon].
  - cbn [Lesson.clicks]. unfold Lesson.noDepsAt at 1.
    destruct b.
    + rewrite lesson_nodeps_click1.
      rewrite presses_cons_same, (presses_cons_other Increase1 Increase2) by discriminate.
      change (0 + 1) with 1.
      unfold Lesson.setAdd; cbn [existsb Nat.eqb orb].
      destruct (Z.eqb_spec 1 count1) as [E|NE]; [destruct pending|].
      * destruct (IH count1 count2 (out ++ [Lesson.Members [0; 1]%nat]) (S (S n)) false
                     H1 H2 (noDepsConsole_rerun _ _ _ Hcon))
          as (out' & n' & p' & Hrun & Hc).
        exists out', n', p'. unfold Lesson.noDepsAt at 1 in Hrun. rewrite Hrun.
        replace (Z.min 1 (count1 + Z.of_nat (S (presses Increase1 bs))))
          with (Z.min 1 (count1 + Z.of_nat (presses Increase1 bs))) by lia.
        split; [reflexivity | exact Hc].
      * destruct (IH count1 count2 out n false H1 H2 Hcon)
          as (out' & n' & p' & Hrun & Hc).
        exists out', n', p'. unfold Lesson.noDepsAt at 1 in Hrun. rewrite Hrun.
        replace (Z.min 1 (count1 + Z.of_nat (S (presses Increase1 bs))))
          with (Z.min 1 (count1 + Z.of_nat (presses Increase1 bs))) by lia.
        split; [reflexivity | exact Hc].
      * assert (count1 = 0) by lia. subst count1.
        destruct (IH 1 count2
                     (out ++ [Lesson.Members [0; 1]%nat;
                              Lesson.Text "somethingThatTakesLong"])
                     (S (S n)) true (or_intror eq_refl) H2
                     (noDepsConsole_update _ _ _ Hcon))
          as (out' & n' & p' & Hrun & Hc).
        exists out', n', p'. unfold Lesson.noDepsAt at 1 in Hrun. rewrite Hrun.
        replace (Z.min 1 (0 + Z.of_nat (S (presses Increase1 bs))))
          with (Z.min 1 (1 + Z.of_nat (presses Increase1 bs))) by lia.
        split; [reflexivity | exact Hc].
    + rewrite lesson_nodeps_click2.
      rewrite presses_cons_same, (presses_cons_other Increase2 Increase1) by discriminate.
      change (0 + 1) with 1.
      unfold Lesson.setAdd; cbn [existsb Nat.eqb orb].
      destruct (Z.eqb_spec 1 count2) as [E|NE]; [destruct pending|].
      * destruct (IH count1 count2 (out ++ [Lesson.Members [0; 1]%nat]) (S (S n)) false
                     H1 H2 (noDepsConsole_rerun _ _ _ Hcon))
          as (out' & n' & p' & Hrun & Hc).
        exists out', n', p'. unfold Lesson.noDepsAt at 1 in Hrun. rewrite Hrun.
        replace (Z.min 1 (count2 + Z.of_nat (S (presses Increase2 bs))))
          with (Z.min 1 (count2 + Z.of_nat (presses Increase2 bs))) by lia.
        split; [reflexivity | exact Hc].
      * destruct (IH count1 count2 out n false H1 H2 Hcon)
          as (out' & n' & p' & Hrun & Hc).
        exists out', n', p'. unfold Lesson.noDepsAt at 1 in Hrun. rewrite Hrun.
        replace (Z.min 1 (count2 + Z.of_nat (S (presses Increase2 bs))))
          with (Z.min 1 (count2 + Z.of_nat (presses Increase2 bs))) by lia.
        split; [reflexivity | exact Hc].
      * assert (count2 = 0) by lia. subst count2.
        assert (Hcon' : Lesson.noDepsConsole (out ++ [Lesson.Members [0; 1]%nat])
                          (S (S n)) count1)
          by (apply noDepsConsole_rerun; exact Hcon).
        destruct (IH count1 1 (out ++ [Lesson.Members [0; 1]%nat]) (S (S n)) true
                     H1 (or_intror eq_refl) Hcon')
          as (out' & n' & p' & Hrun & Hc).
        exists out', n', p'. unfold Lesson.noDepsAt at 1 in Hrun. rewrite Hrun.
        replace (Z.min 1 (0 + Z.of_nat (S (presses Increase2 bs))))
          with (Z.min 1 (1 + Z.of_nat (presses Increase2 bs))) by lia.
        split; [reflexivity | exact Hc].
Qed.

(** ** Handlers under [useCallback] with the counter as dependency *)

Lemma lesson_deps_clicks (bs : list Button) :
  forall count1 count2 r1 r2 out members n pending,
    In r1 members -> In r2 members -> (forall x, In x members -> (x < n)%nat) ->
    exists r1' r2' out' members' n' pending',
      Lesson.clicks Lesson.CallbackDeps bs
        (Lesson.depsAt count1 count2 r1 r2 out members n pending)
      = Some (Lesson.depsAt (count1 + Z.of_nat (presses Increase1 bs))
                            (count2 + Z.of_nat (presses Increase2 bs))
                            r1' r2' out' members' n' pending') /\
      In r1' members' /\ In r2' members' /\
      (forall x, In x members' -> (x < n')%nat) /\
      List.length members' = (List.length members + List.length bs)%nat.
Proof.
  induction bs as [|b bs IH];
    intros count1 count2 r1 r2 out members n pending Hr1 Hr2 Hlt.
  - exists r1, r2, out, members, n, pending.
    cbn. rewrite !Z.add_0_r, Nat.add_0_r. auto.
  - cbn [Lesson.clicks]. unfold Lesson.depsAt at 1.
    assert (Hn : ~ In n members) by (intros Hin; apply Hlt in Hin; lia).
    assert (HSn : ~ In (S n) members) by (intros Hin; apply Hlt in Hin; lia).
    destruct b.
    + rewrite lesson_deps_click1.
      rewrite (setAdd_fresh n) by assumption.
      rewrite (setAdd_member r2) by (apply in_or_app; now left).
      assert (A1 : In n (members ++ [n])) by (apply in_or_app; right; now left).
      assert (A2 : In r2 (members ++ [n])) by (apply in_or_app; now left).
      assert (A3 : forall x, In x (members ++ [n]) -> (x < S (S n))%nat).
      { intros x Hin. apply in_app_or in Hin as [Hin|[<-|[]]]; [apply Hlt in Hin|]; lia. }
      destruct (IH (count1 + 1) count2 n r2
                   (out ++ [Lesson.Members (members ++ [n]);
                            Lesson.Text "somethingThatTakesLong"])
                   (members ++ [n]) (S (S n)) true A1 A2 A3)
        as (r1' & r2' & out' & ms' & n' & p' & Hrun & Hi).
      exists r1', r2', out', ms', n', p'. unfold Lesson.depsAt at 1 in Hrun.
      rewrite Hrun.
      rewrite presses_cons_same, (presses_cons_other Increase1 Increase2) by discriminate.
      destruct Hi as (Hi1 & Hi2 & Hi3 & Hlen).
      rewrite length_app in Hlen. cbn [List.length] in Hlen |- *.
      repeat split; try assumption; try lia.
      do 2 f_equal; lia.
    + rewrite lesson_deps_click2.
      rewrite (setAdd_member r1) by assumption.
      rewrite (setAdd_fresh (S n)) by assumption.
      assert (A1 : In r1 (members ++ [S n])) by (apply in_or_app; now left).
      assert (A2 : In (S n) (members ++ [S n])) by (apply in_or_app; right; now left).
      assert (A3 : forall x, In x (members ++ [S n]) -> (x < S (S n))%nat).
      { intros x Hin. apply in_app_or in Hin as [Hin|[<-|[]]]; [apply Hlt in Hin|]; lia. }
      destruct (IH count1 (count2 + 1) r1 (S n)
                   (out ++ [Lesson.Members (members ++ [S n])])
                   (members ++ [S n]) (S (S n)) true A1 A2 A3)
        as (r1' & r2' & out' & ms' & n' & p' & Hrun & Hi).
      exists r1', r2', out', ms', n', p'. unfold Lesson.depsAt at 1 in Hrun.
      rewrite Hrun.
      rewrite presses_cons_same, (presses_cons_other Increase2 Increase1) by discriminate.
      destruct Hi as (Hi1 & Hi2 & Hi3 & Hlen).
      rewrite length_app in Hlen. cbn [List.length] in Hlen |- *.
      repeat split; try assumption; try lia.
      do 2 f_equal; lia.
Qed.

(** X7: with the handlers defined inline (lines 107-108) and collected in
    the [functions] set (lines 101, 116, 117), every render adds its two
    handlers to the set as new members: after the mount and the presses
    [bs] the set holds two objects per render, every function object ever
    created, and the handlers on screen are the two newest.  The counters
    are the numbers of presses, as without the set. *)
Theorem inline_handlers_are_new_every_render :
  forall bs, exists w,
    Lesson.session Lesson.Inline bs = Some w /\
    Lesson.collected w = seq 0 (2 * S (List.length bs)) /\
    Lesson.objects w = (2 * S (List.length bs))%nat /\
    Lesson.ref (Lesson.IncreaseCount1 (Lesson.screen w)) = (2 * List.length bs)%nat /\
    Lesson.ref (Lesson.IncreaseCount2 (Lesson.screen w)) = S (2 * List.length bs) /\
    Lesson.Count1 (Lesson.screen w) = Z.of_nat (presses Increase1 bs) /\
    Lesson.Count2 (Lesson.screen w) = Z.of_nat (presses Increase2 bs).
Proof.
  intros bs.
  destruct (lesson_inline_clicks bs 0 0 0
              [Lesson.Members [0; 1]%nat; Lesson.Text "somethingThatTakesLong"] false)
    as (out' & pending' & Hrun).
  eexists. split.
  - unfold Lesson.session. rewrite lesson_mount_eq. exact Hrun.
  - cbn [Lesson.inlineAt Lesson.settledAt Lesson.collected Lesson.objects
         Lesson.screen Lesson.IncreaseCount1 Lesson.IncreaseCount2 Lesson.ref
         Lesson.incrementFn Lesson.Count1 Lesson.Count2].
    replace (2 * S (List.length bs))%nat with (S (S (0 + 2 * List.length bs))) by lia.
    repeat split; lia.
Qed.

(** X8: with the handlers under [useCallback] with an empty dependency
    array (lines 110-111), no new function reaches the set (it keeps the two
    handlers of the mount, and every set logged by line 124 is that pair),
    and each counter is incremented only once: it shows 1 as soon as its
    button was pressed and stays there however often the button is pressed
    again.  The derived value follows [Counter1], and the memo body ran
    once for the mount and once more if the first counter moved.  The
    component function itself runs more often than the counters move: two
    function objects were created for each of its executions, each of which
    logged the set, and these include the execution the runtime performs
    before it bails out of a press that sets the stored value.  After the
    mount and two presses of the first button the component function has
    run three times and the console holds five lines; a third press runs
    nothing and leaves that state as it is. *)
Theorem empty_dependency_array_increments_once :
  (forall bs, exists w,
      Lesson.session Lesson.CallbackNoDeps bs = Some w /\
      Lesson.collected w = [0; 1]%nat /\
      Lesson.ref (Lesson.IncreaseCount1 (Lesson.screen w)) = 0%nat /\
      Lesson.ref (Lesson.IncreaseCount2 (Lesson.screen w)) = 1%nat /\
      Lesson.Count1 (Lesson.screen w) = Z.min 1 (Z.of_nat (presses Increase1 bs)) /\
      Lesson.Count2 (Lesson.screen w) = Z.min 1 (Z.of_nat (presses Increase2 bs)) /\
      Lesson.DoSomethingThatTakesLong (Lesson.screen w)
      = 300 * Z.min 1 (Z.of_nat (presses Increase1 bs)) /\
      (forall refs, In (Lesson.Members refs) (Lesson.log w) -> refs = [0; 1]%nat) /\
      Lesson.objects w = (2 * Lesson.appRuns (Lesson.log w))%nat /\
      Z.of_nat (Lesson.memoRuns (Lesson.log w)) = 1 + Lesson.Count1 (Lesson.screen w)) /\
  (exists w,
      Lesson.session Lesson.CallbackNoDeps [Increase1; Increase1] = Some w /\
      Lesson.appRuns (Lesson.log w) = 3%nat /\
      List.length (Lesson.log w) = 5%nat /\
      Lesson.session Lesson.CallbackNoDeps [Increase1; Increase1; Increase1] = Some w).
Proof.
  split.
  - intros bs.
    destruct (lesson_nodeps_clicks bs 0 0
                [Lesson.Members [0; 1]%nat; Lesson.Text "somethingThatTakesLong"] 2 false
                (or_introl eq_refl) (or_introl eq_refl))
      as (out' & n' & p' & Hrun & Hmem & Hn & Hmemo).
    { repeat split.
      intros refs [Heq|[Heq|[]]]; [now injection Heq as <- | discriminate]. }
    eexists. split.
    + unfold Lesson.session. rewrite lesson_mount_eq. exact Hrun.
    + cbn [Lesson.noDepsAt Lesson.settledAt Lesson.collected Lesson.screen
           Lesson.IncreaseCount1 Lesson.IncreaseCount2 Lesson.ref Lesson.incrementFn
           Lesson.Count1 Lesson.Count2 Lesson.DoSomethingThatTakesLong
           Lesson.log Lesson.objects].
      rewrite !Z.add_0_l in *.
      repeat split; try assumption. ring.
  - eexists. split; [vm_compute; reflexivity|].
    repeat split.
Qed.

(** X9: with the handlers under [useCallback] with their counter as
    dependency (lines 113-114), the screen shows what the shipped component
    shows after the same presses, and the set gains exactly one member per
    press: a press of one button puts a new handler for that button on
    screen, not seen by the set before, and keeps the very function object
    of the other button. *)
Theorem counter_dependency_renews_only_pressed_handler :
  forall bs, exists w w0 w1 w2,
    Lesson.session Lesson.CallbackDeps bs = Some w /\ session bs = Some w0 /\
    Lesson.Count1 (Lesson.screen w) = Counter1 w0 /\
    Lesson.Count2 (Lesson.screen w) = Counter2 w0 /\
    Lesson.DoSomethingThatTakesLong (Lesson.screen w) = DerivedValue w0 /\
    List.length (Lesson.collected w) = (2 + List.length bs)%nat /\
    Lesson.click Lesson.CallbackDeps Increase1 w = Some w1 /\
    Lesson.IncreaseCount2 (Lesson.screen w1) = Lesson.IncreaseCount2 (Lesson.screen w) /\
    ~ In (Lesson.ref (Lesson.IncreaseCount1 (Lesson.screen w1))) (Lesson.collected w) /\
    Lesson.collected w1
    = Lesson.collected w ++ [Lesson.ref (Lesson.IncreaseCount1 (Lesson.screen w1))] /\
    Lesson.click Lesson.CallbackDeps Increase2 w = Some w2 /\
    Lesson.IncreaseCount1 (Lesson.screen w2) = Lesson.IncreaseCount1 (Lesson.screen w) /\
    ~ In (Lesson.ref (Lesson.IncreaseCount2 (Lesson.screen w2))) (Lesson.collected w) /\
    Lesson.collected w2
    = Lesson.collected w ++ [Lesson.ref (Lesson.IncreaseCount2 (Lesson.screen w2))].
Proof.
  intros bs.
  destruct (lesson_deps_clicks bs 0 0 0 1
              [Lesson.Members [0; 1]%nat; Lesson.Text "somethingThatTakesLong"]
              [0; 1]%nat 2 false)
    as (r1 & r2 & out & members & n & pending & Hrun & Hr1 & Hr2 & Hlt & Hlen).
  { now left. }
  { right. now left. }
  { intros x [<-|[<-|[]]]; lia. }
  assert (Hn : ~ In n members) by (intros Hin; apply Hlt in Hin; lia).
  assert (HSn : ~ In (S n) members) by (intros Hin; apply Hlt in Hin; lia).
  do 4 eexists.
  split; [unfold Lesson.session; rewrite lesson_mount_eq; exact Hrun|].
  split; [apply session_eq|].
  unfold Lesson.depsAt.
  rewrite lesson_deps_click1, lesson_deps_click2.
  rewrite (setAdd_fresh n), (setAdd_member r2), (setAdd_member r1), (setAdd_fresh (S n));
    try assumption; try (apply in_or_app; now left).
  unfold Counter1, Counter2, DerivedValue.
  cbn [Lesson.settledAt Lesson.collected Lesson.screen Lesson.IncreaseCount1
       Lesson.IncreaseCount2 Lesson.ref Lesson.incrementFn Lesson.Count1 Lesson.Count2
       Lesson.DoSomethingThatTakesLong screen settledAt elementOf Count1 Count2
       DoSomethingThatTakesLong].
  cbn [List.length] in Hlen.
  repeat split; try reflexivity; try assumption; try lia.
Qed.
